(** * StreamWeaver: the exactly-once processor of [src/StreamProcessor.js]

    A shallow embedding of the class [StreamWeaverProcessor] and of the demo
    that follows it in the same file, with the properties of the
    specification stated over that embedding.

    The processor is one JavaScript object whose only field is
    [processedMessages], a [Set] of message ids.  Its methods are run to
    completion by the JavaScript runtime (none of them awaits or yields), so
    a method call is one atomic transition of the object. *)

From stdpp Require Import gmap strings list.
From Stdlib Require Import ZArith.

Set Warnings "-clear-no-such-hyp".

Local Open Scope Z_scope.
Local Open Scope string_scope.
Local Open Scope list_scope.

(** ** Data *)

(** A message, as the stream delivers it: [{ id: ..., data: ... }]. *)
Record Message := mkMessage { id : string; data : string }.

(** The object literal returned by [processMessage] (lines 41-46), with the
    field types of its JSDoc:
    [{id: string, durationMs: number, processed: boolean, isNew: boolean}]. *)
Record Result := mkResult {
  r_id : string;
  durationMs : Z;
  processed : bool;
  isNew : bool
}.

(** JavaScript values that occur as fields of the returned object. *)
Inductive JsValue :=
| JsString (s : string)
| JsNumber (z : Z)
| JsBoolean (b : bool).

(** The returned object as JavaScript sees it: its own properties, in the
    order in which the literal lists them. *)
Definition Result_object (r : Result) : list (string * JsValue) :=
  [ ("id", JsString (r_id r));
    ("durationMs", JsNumber (durationMs r));
    ("processed", JsBoolean (processed r));
    ("isNew", JsBoolean (isNew r)) ].

(** Reading a property: [obj.k], with [None] for [undefined]. *)
Fixpoint get_property (k : string) (o : list (string * JsValue)) : option JsValue :=
  match o with
  | [] => None
  | (k', v) :: o' => if String.eqb k k' then Some v else get_property k o'
  end.

(** What an observer of one processor can see happen, in order: the id is
    added to [processedMessages]; [executeBusinessLogic] is entered; it
    returns normally; it raises. *)
Inductive Event :=
| Marked (x : string)
| Invoked (m : Message)
| Completed (m : Message)
| Raised (m : Message).

Global Instance Message_eq_dec : EqDecision Message.
Proof. solve_decision. Defined.

Global Instance Event_eq_dec : EqDecision Event.
Proof. solve_decision. Defined.

(** The processor and the part of the runtime its methods touch:
    [processedMessages] is the field of the object, [reads] counts the calls
    of [Date.now()] made so far, [events] is the history observed so far
    (oldest first). *)
Record World := mkWorld {
  processedMessages : gset string;
  reads : nat;
  events : list Event
}.

(** How a call ends: with a value, or with an exception that propagates to
    the caller. *)
Inductive completion (A : Type) :=
| Returned (a : A)
| Thrown.
Arguments Returned {A} a.
Arguments Thrown {A}.

(** ** A state-and-exception monad for method bodies *)

Definition M (A : Type) : Type := World -> World * completion A.

Definition ret {A} (a : A) : M A := fun w => (w, Returned a).

Definition bind {A B} (c : M A) (k : A -> M B) : M B :=
  fun w =>
    match c w with
    | (w', Returned a) => k a w'
    | (w', Thrown) => (w', Thrown)
    end.

Notation "'let*' x ':=' c 'in' k" := (bind c (fun x => k))
  (at level 10, x name, c at level 100, k at level 200).
Notation "c1 ';;;' c2" := (bind c1 (fun _ => c2))
  (at level 100, c2 at level 200, right associativity).

Fixpoint mapM {A B} (f : A -> M B) (l : list A) : M (list B) :=
  match l with
  | [] => ret []
  | a :: l' => let* b := f a in let* bs := mapM f l' in ret (b :: bs)
  end.

(** The business logic that is in effect when [processMessage] calls
    [this.executeBusinessLogic(message)]: given the history so far and the
    message, whether the call returns normally ([true]) or raises
    ([false]).  The method is the class's extension point ("Placeholder for
    the core processing logic"); a subclass may override it. *)
Definition BusinessLogic : Type := list Event -> Message -> bool.

(** [executeBusinessLogic] as the class defines it (lines 53-57): it draws
    [Math.random() * 50] into a local that nothing reads and returns.  It
    never raises. *)
Definition executeBusinessLogic : BusinessLogic := fun _ _ => true.

(** The public methods of the class, as calls a client can make. *)
Inductive Call :=
| Call_processMessage (m : Message)
| Call_executeBusinessLogic (m : Message)
| Call_getUniqueCount.

Section Runtime.

(** [clock k] is the value of the [k]-th call of [Date.now()], in
    milliseconds.  Nothing is assumed about it. *)
Variable clock : nat -> Z.

(** The business logic in effect. *)
Variable logic : BusinessLogic.

(** *** Primitives *)

Definition Date_now : M Z := fun w =>
  (mkWorld (processedMessages w) (S (reads w)) (events w),
   Returned (clock (reads w))).

(** [this.processedMessages.has(x)] *)
Definition Set_has (x : string) : M bool := fun w =>
  (w, Returned (bool_decide (x ∈ processedMessages w))).

(** [this.processedMessages.add(x)] *)
Definition Set_add (x : string) : M unit := fun w =>
  (mkWorld ({[x]} ∪ processedMessages w) (reads w) (events w ++ [Marked x]),
   Returned tt).

(** [this.processedMessages.size] *)
Definition Set_size : M nat := fun w =>
  (w, Returned (size (processedMessages w))).

(** [this.executeBusinessLogic(message)], dispatched to the logic in
    effect. *)
Definition call_executeBusinessLogic (message : Message) : M unit := fun w =>
  let h := events w ++ [Invoked message] in
  if logic h message
  then (mkWorld (processedMessages w) (reads w) (h ++ [Completed message]),
        Returned tt)
  else (mkWorld (processedMessages w) (reads w) (h ++ [Raised message]),
        Thrown).

(** *** The methods *)

(** [processMessage(message)], lines 22-47. *)
Definition processMessage (message : Message) : M Result :=
  let* startTime := Date_now in
  let messageId := id message in
  let* seen := Set_has messageId in
  let isNew := negb seen in
  (if isNew
   then Set_add messageId ;;; call_executeBusinessLogic message
   else ret tt) ;;;
  let* endTime := Date_now in
  let durationMs := endTime - startTime in
  ret (mkResult messageId durationMs isNew isNew).

(** [getUniqueCount()], lines 62-64. *)
Definition getUniqueCount : M nat := Set_size.

(** *** Callers *)

(** A caller that delivers the messages one after the other and keeps
    going when a delivery raises (it catches the exception): the final
    world and how each call ended. *)
Fixpoint deliveries (ms : list Message) (w : World)
  : World * list (completion Result) :=
  match ms with
  | [] => (w, [])
  | m :: ms' =>
      let (w1, o) := processMessage m w in
      let (w2, os) := deliveries ms' w1 in
      (w2, o :: os)
  end.

Definition call (c : Call) (w : World) : World :=
  match c with
  | Call_processMessage m => fst (processMessage m w)
  | Call_executeBusinessLogic m => fst (call_executeBusinessLogic m w)
  | Call_getUniqueCount => fst (getUniqueCount w)
  end.

Definition calls (cs : list Call) (w : World) : World :=
  foldl (fun w c => call c w) w cs.

End Runtime.

(** [new StreamWeaverProcessor()], lines 11-15, in a runtime where nothing
    has happened yet.  The constructor's [console.log] is not modelled. *)
Definition new_StreamWeaverProcessor : World := mkWorld ∅ 0 [].

(** ** The demo, lines 67-98 *)

Definition messageStream : list Message :=
  [ mkMessage "A1" "Order placed";
    mkMessage "B2" "Inventory check";
    mkMessage "A1" "Order placed (Duplicate)";
    mkMessage "C3" "Payment confirmed";
    mkMessage "B2" "Inventory check (Duplicate)";
    mkMessage "D4" "Shipping label printed" ].

(** Line 88. *)
Definition status (result : Result) : string :=
  if isNew result then "NEW (Processed)" else "DUPLICATE (Skipped)".

(** The [forEach] over the stream, then the summary: the status printed for
    each message, the records themselves, and the count printed as
    "Total unique messages processed". *)
Definition demo (clock : nat -> Z) : M (list Result * list string * nat) :=
  let* results := mapM (processMessage clock executeBusinessLogic) messageStream in
  let* n := getUniqueCount in
  ret (results, map status results, n).

(** ** Derived observations *)

(** The messages on which the business logic was invoked, oldest first. *)
Definition invocations (h : list Event) : list Message :=
  omap (fun e => match e with Invoked m => Some m | _ => None end) h.

(** How often the business logic was invoked on a message with id [x]. *)
Definition invoked_count (x : string) (h : list Event) : nat :=
  length (filter (fun m => id m = x) (invocations h)).

(** A call that ended by returning a record that reports a duplicate. *)
Definition rejected (o : completion Result) : bool :=
  match o with
  | Returned r => negb (isNew r)
  | Thrown => false
  end.

(** How often the id [x] was added to [processedMessages]. *)
Definition marked_count (x : string) (h : list Event) : nat :=
  length (filter (fun e => e = Marked x) h).

(** The history a new message leaves behind, up to the moment the business
    logic is entered. *)
Definition entered (w : World) (m : Message) : list Event :=
  (events w ++ [Marked (id m)]) ++ [Invoked m].

(** The three ways a call can go. *)
Inductive step_case (logic : BusinessLogic) (m : Message) (w : World) : Prop :=
| case_duplicate :
    id m ∈ processedMessages w -> step_case logic m w
| case_ok :
    id m ∉ processedMessages w -> logic (entered w m) m = true ->
    step_case logic m w
| case_raise :
    id m ∉ processedMessages w -> logic (entered w m) m = false ->
    step_case logic m w.

(** The history and the set agree: the business logic has been invoked
    once for each recorded id and never for another. *)
Definition counted (w : World) : Prop :=
  forall x, invoked_count x (events w) =
            if bool_decide (x ∈ processedMessages w) then 1%nat else 0%nat.

(** The world after the first message of the demo. *)
Definition after_A1 : World :=
  fst (processMessage (fun _ => 0) executeBusinessLogic
         (mkMessage "A1" "Order placed") new_StreamWeaverProcessor).

(** A business logic that raises the first time it is invoked and returns
    normally from then on: the effect that fails once and would succeed on
    a retry. *)
Definition raises_once : BusinessLogic :=
  fun h _ => bool_decide (1 < length (invocations h))%nat.

(** Write-after-effect ordering, in the words of the specification: every
    mark of an id comes after a successful completion of the business logic
    on a message with that id. *)
Definition write_after_effect (h : list Event) : Prop :=
  forall i x, h !! i = Some (Marked x) ->
    exists j m, (j < i)%nat /\ h !! j = Some (Completed m) /\ id m = x.

(** The first delivery of each id, in delivery order: the stream with every
    message dropped whose id an earlier message carries. *)
Fixpoint first_per_id (ms : list Message) : list Message :=
  match ms with
  | [] => []
  | m :: ms' => m :: filter (fun m' => id m' <> id m) (first_per_id ms')
  end.

(** The history and the set agree on the marks: each recorded id was added
    once, and no other id was ever added. *)
Definition marked_once (w : World) : Prop :=
  forall x, marked_count x (events w) =
            if bool_decide (x ∈ processedMessages w) then 1%nat else 0%nat.

(** The demo's loop and summary (lines 83-97) over any stream in place of
    [messageStream]: the records, the status printed for each message, the
    number printed as "Total messages sent" and the number printed as
    "Total unique messages processed". *)
Definition forEach_summary (clock : nat -> Z) (stream : list Message)
  : M (list Result * list string * nat * nat) :=
  let* results := mapM (processMessage clock executeBusinessLogic) stream in
  let* n := getUniqueCount in
  ret (results, map status results, length stream, n).

(** ** One call of [processMessage] *)

Section Steps.

Variable clock : nat -> Z.
Variable logic : BusinessLogic.

Lemma processMessage_duplicate m w :
  id m ∈ processedMessages w ->
  processMessage clock logic m w =
    (mkWorld (processedMessages w) (S (S (reads w))) (events w),
     Returned (mkResult (id m) (clock (S (reads w)) - clock (reads w))
                        false false)).
Proof.
  intros Hin. unfold processMessage, bind, Date_now, Set_has, ret. simpl.
  rewrite bool_decide_eq_true_2 by exact Hin. reflexivity.
Qed.

Lemma processMessage_new_ok m w :
  id m ∉ processedMessages w ->
  logic (entered w m) m = true ->
  processMessage clock logic m w =
    (mkWorld ({[id m]} ∪ processedMessages w) (S (S (reads w)))
             (entered w m ++ [Completed m]),
     Returned (mkResult (id m) (clock (S (reads w)) - clock (reads w))
                        true true)).
Proof.
  intros Hnin Hok.
  unfold processMessage, bind, Date_now, Set_has, Set_add,
    call_executeBusinessLogic, ret. simpl.
  rewrite bool_decide_eq_false_2 by exact Hnin. simpl.
  unfold entered in Hok. rewrite Hok. reflexivity.
Qed.

Lemma processMessage_new_raise m w :
  id m ∉ processedMessages w ->
  logic (entered w m) m = false ->
  processMessage clock logic m w =
    (mkWorld ({[id m]} ∪ processedMessages w) (S (reads w))
             (entered w m ++ [Raised m]),
     Thrown).
Proof.
  intros Hnin Hko.
  unfold processMessage, bind, Date_now, Set_has, Set_add,
    call_executeBusinessLogic, ret. simpl.
  rewrite bool_decide_eq_false_2 by exact Hnin. simpl.
  unfold entered in Hko. rewrite Hko. reflexivity.
Qed.

Lemma step_cases m w : step_case logic m w.
Proof.
  destruct (decide (id m ∈ processedMessages w)) as [Hin | Hnin].
  - now apply case_duplicate.
  - destruct (logic (entered w m) m) eqn:E.
    + now apply case_ok.
    + now apply case_raise.
Qed.

End Steps.

(** Split a call into its three cases and rewrite it in each. *)
Ltac step_split clock logic m w :=
  destruct (step_cases logic m w) as [?Hin | ?Hnin ?Hok | ?Hnin ?Hko];
  [ rewrite (processMessage_duplicate clock logic m w) by assumption
  | rewrite (processMessage_new_ok clock logic m w) by assumption
  | rewrite (processMessage_new_raise clock logic m w) by assumption ].

(** ** Counting events *)

Lemma invoked_count_app x h1 h2 :
  invoked_count x (h1 ++ h2) = (invoked_count x h1 + invoked_count x h2)%nat.
Proof.
  unfold invoked_count, invocations.
  now rewrite omap_app, filter_app, length_app.
Qed.

Lemma marked_count_app x h1 h2 :
  marked_count x (h1 ++ h2) = (marked_count x h1 + marked_count x h2)%nat.
Proof. unfold marked_count. now rewrite filter_app, length_app. Qed.

Lemma invoked_count_Invoked x m :
  invoked_count x [Invoked m] = if bool_decide (id m = x) then 1%nat else 0%nat.
Proof.
  unfold invoked_count. simpl. rewrite filter_cons, filter_nil.
  destruct (decide (id m = x)) as [E | E].
  - now rewrite bool_decide_eq_true_2.
  - now rewrite bool_decide_eq_false_2.
Qed.

Lemma marked_count_Marked x y :
  marked_count x [Marked y] = if bool_decide (y = x) then 1%nat else 0%nat.
Proof.
  unfold marked_count. rewrite filter_cons, filter_nil.
  destruct (decide (Marked y = Marked x)) as [E | E].
  - inversion E; subst. now rewrite bool_decide_eq_true_2.
  - rewrite bool_decide_eq_false_2; [reflexivity | congruence].
Qed.

(** What one new message adds to the counts. *)
Lemma invoked_count_entered x w m :
  invoked_count x (entered w m) =
    (invoked_count x (events w) + if bool_decide (id m = x) then 1 else 0)%nat.
Proof.
  unfold entered. rewrite !invoked_count_app, invoked_count_Invoked.
  change (invoked_count x [Marked (id m)]) with 0%nat. lia.
Qed.

Lemma marked_count_entered x w m :
  marked_count x (entered w m) =
    (marked_count x (events w) + if bool_decide (id m = x) then 1 else 0)%nat.
Proof.
  unfold entered. rewrite !marked_count_app, marked_count_Marked.
  change (marked_count x [Invoked m]) with 0%nat. lia.
Qed.

(** ** What every call preserves *)

Section Invariants.

Variable clock : nat -> Z.
Variable logic : BusinessLogic.

(** [processMessage] records the id of its message, whatever happens. *)
Lemma processMessage_seen m w :
  processedMessages (fst (processMessage clock logic m w)) =
    {[id m]} ∪ processedMessages w.
Proof.
  step_split clock logic m w; simpl; try reflexivity.
  apply set_eq. intros y. set_solver.
Qed.

Lemma processMessage_invoked_count x m w :
  invoked_count x (events (fst (processMessage clock logic m w))) =
    (invoked_count x (events w) +
     if bool_decide (id m ∈ processedMessages w) then 0
     else if bool_decide (id m = x) then 1 else 0)%nat.
Proof.
  step_split clock logic m w; simpl.
  - rewrite bool_decide_eq_true_2 by assumption. lia.
  - rewrite bool_decide_eq_false_2 by assumption.
    rewrite invoked_count_app, invoked_count_entered.
    change (invoked_count x [Completed m]) with 0%nat. lia.
  - rewrite bool_decide_eq_false_2 by assumption.
    rewrite invoked_count_app, invoked_count_entered.
    change (invoked_count x [Raised m]) with 0%nat. lia.
Qed.

Lemma processMessage_marked_count x m w :
  marked_count x (events (fst (processMessage clock logic m w))) =
    (marked_count x (events w) +
     if bool_decide (id m ∈ processedMessages w) then 0
     else if bool_decide (id m = x) then 1 else 0)%nat.
Proof.
  step_split clock logic m w; simpl.
  - rewrite bool_decide_eq_true_2 by assumption. lia.
  - rewrite bool_decide_eq_false_2 by assumption.
    rewrite marked_count_app, marked_count_entered.
    change (marked_count x [Completed m]) with 0%nat. lia.
  - rewrite bool_decide_eq_false_2 by assumption.
    rewrite marked_count_app, marked_count_entered.
    change (marked_count x [Raised m]) with 0%nat. lia.
Qed.

Lemma counted_processMessage m w :
  counted w -> counted (fst (processMessage clock logic m w)).
Proof.
  intros Hc x. rewrite processMessage_invoked_count, processMessage_seen, Hc.
  destruct (decide (id m ∈ processedMessages w)) as [Hm | Hm];
    destruct (decide (x ∈ processedMessages w)) as [Hx | Hx];
    destruct (decide (id m = x)) as [E | E];
    repeat first
      [ rewrite bool_decide_eq_true_2 by set_solver
      | rewrite bool_decide_eq_false_2 by set_solver ];
    try lia; subst; contradiction.
Qed.

Lemma deliveries_cons m ms w :
  deliveries clock logic (m :: ms) w =
    (fst (deliveries clock logic ms (fst (processMessage clock logic m w))),
     snd (processMessage clock logic m w)
       :: snd (deliveries clock logic ms (fst (processMessage clock logic m w)))).
Proof.
  simpl. destruct (processMessage clock logic m w) as [w1 o]. simpl.
  now destruct (deliveries clock logic ms w1).
Qed.

Lemma counted_deliveries ms w :
  counted w -> counted (fst (deliveries clock logic ms w)).
Proof.
  revert w. induction ms as [| m ms IH]; intros w Hc; [exact Hc |].
  rewrite deliveries_cons. simpl. apply IH. now apply counted_processMessage.
Qed.

Lemma deliveries_seen ms w :
  processedMessages (fst (deliveries clock logic ms w)) =
    list_to_set (map id ms) ∪ processedMessages w.
Proof.
  revert w. induction ms as [| m ms IH]; intros w.
  - simpl. apply set_eq. intros y. set_solver.
  - rewrite deliveries_cons. simpl. rewrite IH, processMessage_seen.
    apply set_eq. intros y. set_solver.
Qed.

Lemma deliveries_length ms w :
  length (snd (deliveries clock logic ms w)) = length ms.
Proof.
  revert w. induction ms as [| m ms IH]; intros w; [reflexivity |].
  rewrite deliveries_cons. simpl. now rewrite IH.
Qed.

(** The other two public methods leave the set alone. *)
Lemma call_seen c w :
  processedMessages w ⊆ processedMessages (call clock logic c w).
Proof.
  destruct c as [m | m |]; simpl.
  - rewrite processMessage_seen. set_solver.
  - unfold call_executeBusinessLogic.
    now destruct (logic (events w ++ [Invoked m]) m).
  - reflexivity.
Qed.

Lemma calls_seen cs w :
  processedMessages w ⊆ processedMessages (calls clock logic cs w).
Proof.
  revert w. induction cs as [| c cs IH]; intros w; [reflexivity |].
  simpl. etransitivity; [apply (call_seen c) | apply IH].
Qed.

End Invariants.

Lemma counted_new : counted new_StreamWeaverProcessor.
Proof. intros x. reflexivity. Qed.

(** ** Exactly-once over a stream *)

(** C1.  Whatever the stream delivered to a fresh processor, and whatever
    the business logic does, the business logic is invoked exactly once for
    each id that occurs in the stream (however often the id is delivered,
    and wherever its duplicates sit) and never for any other id. *)
Theorem exactly_once_per_id (clock : nat -> Z) (logic : BusinessLogic)
    (ms : list Message) (x : string) :
  invoked_count x
    (events (fst (deliveries clock logic ms new_StreamWeaverProcessor))) =
  if bool_decide (x ∈ map id ms) then 1%nat else 0%nat.
Proof.
  rewrite (counted_deliveries clock logic ms _ counted_new x).
  rewrite deliveries_seen. simpl.
  destruct (decide (x ∈ map id ms)) as [Hx | Hx].
  - rewrite !bool_decide_eq_true_2; [reflexivity | assumption | set_solver].
  - rewrite !bool_decide_eq_false_2; [reflexivity | assumption | set_solver].
Qed.

(** C2.  A message whose id is already recorded gets the duplicate record
    ([isNew] and [processed] both false) at once: nothing is added to the
    history, so the business logic is not invoked, and [processedMessages]
    is the set it was. *)
Theorem duplicate_is_skipped (clock : nat -> Z) (logic : BusinessLogic)
    (m : Message) (w : World) :
  id m ∈ processedMessages w ->
  (exists d, snd (processMessage clock logic m w) =
             Returned (mkResult (id m) d false false)) /\
  events (fst (processMessage clock logic m w)) = events w /\
  processedMessages (fst (processMessage clock logic m w)) =
    processedMessages w.
Proof.
  intros Hin. rewrite processMessage_duplicate by exact Hin. simpl.
  split; [eexists; reflexivity | split; reflexivity].
Qed.

Lemma duplicate_is_skipped_witness :
  let m := mkMessage "A1" "Order placed (Duplicate)" in
  id m ∈ processedMessages after_A1 /\
  ((exists d, snd (processMessage (fun _ => 0) executeBusinessLogic m after_A1) =
              Returned (mkResult (id m) d false false)) /\
   events (fst (processMessage (fun _ => 0) executeBusinessLogic m after_A1)) =
     events after_A1 /\
   processedMessages
     (fst (processMessage (fun _ => 0) executeBusinessLogic m after_A1)) =
     processedMessages after_A1).
Proof.
  assert (H : id (mkMessage "A1" "Order placed (Duplicate)")
              ∈ processedMessages after_A1)
    by (refine (proj1 (bool_decide_eq_true _) _); vm_compute; reflexivity).
  split; [exact H |].
  exact (duplicate_is_skipped (fun _ => 0) executeBusinessLogic _ _ H).
Defined.

(** C5.  The demo: the stream A1, B2, A1, C3, B2, D4 delivered in order to
    a fresh processor of the class as written gives new, new, duplicate,
    new, duplicate, new (a new message is reported with [isNew] and
    [processed] true and printed as NEW (Processed), a duplicate with both
    false and printed as DUPLICATE (Skipped)), and [getUniqueCount] then
    returns 4. *)
Theorem demo_outcomes (clock : nat -> Z) :
  exists results,
    snd (demo clock new_StreamWeaverProcessor) =
      Returned (results,
                [ "NEW (Processed)"; "NEW (Processed)"; "DUPLICATE (Skipped)";
                  "NEW (Processed)"; "DUPLICATE (Skipped)"; "NEW (Processed)" ],
                4%nat) /\
    map r_id results = [ "A1"; "B2"; "A1"; "C3"; "B2"; "D4" ] /\
    map isNew results = [ true; true; false; true; false; true ] /\
    map processed results = [ true; true; false; true; false; true ].
Proof.
  eexists. split; [vm_compute; reflexivity |].
  split; [| split]; reflexivity.
Qed.

(** C10.  In every record that [processMessage] returns, [processed] is
    [isNew], and [isNew] is true exactly when the id of the message was not
    recorded in [processedMessages] when the call began: the call reports
    the message as processed exactly when its id was new.  The record
    carries the id of the message. *)
Theorem processed_is_isNew (clock : nat -> Z) (logic : BusinessLogic)
    (m : Message) (w : World) (r : Result) :
  snd (processMessage clock logic m w) = Returned r ->
  processed r = isNew r /\
  isNew r = negb (bool_decide (id m ∈ processedMessages w)) /\
  r_id r = id m.
Proof.
  step_split clock logic m w; simpl; intros E; inversion E; subst; simpl.
  - rewrite bool_decide_eq_true_2 by assumption. repeat split.
  - rewrite bool_decide_eq_false_2 by assumption. repeat split.
Qed.

Lemma processed_is_isNew_witness :
  let m := mkMessage "A1" "Order placed (Duplicate)" in
  let r := mkResult "A1" 0 false false in
  snd (processMessage (fun _ => 0) executeBusinessLogic m after_A1) =
    Returned r /\
  processed r = isNew r /\
  isNew r = negb (bool_decide (id m ∈ processedMessages after_A1)) /\
  r_id r = id m.
Proof.
  assert (H : snd (processMessage (fun _ => 0) executeBusinessLogic
                     (mkMessage "A1" "Order placed (Duplicate)") after_A1) =
              Returned (mkResult "A1" 0 false false))
    by (vm_compute; reflexivity).
  split; [exact H |].
  exact (processed_is_isNew (fun _ => 0) executeBusinessLogic _ _ _ H).
Defined.

(** ** When the business logic raises *)

(** Deliveries of ids that are all recorded already change neither the set
    nor the history, and each is reported as a duplicate. *)
Lemma deliveries_duplicates clock logic ms w :
  Forall (fun m => id m ∈ processedMessages w) ms ->
  processedMessages (fst (deliveries clock logic ms w)) = processedMessages w /\
  events (fst (deliveries clock logic ms w)) = events w /\
  Forall (fun o => rejected o = true) (snd (deliveries clock logic ms w)).
Proof.
  revert w. induction ms as [| m ms IH]; intros w Hall.
  - simpl. repeat split. constructor.
  - inversion Hall as [| ? ? Hm Hms]; subst.
    rewrite deliveries_cons, processMessage_duplicate by exact Hm. simpl.
    destruct (IH (mkWorld (processedMessages w) (S (S (reads w))) (events w)))
      as (Hs & He & Hr); [exact Hms |].
    simpl in Hs, He. repeat split; try assumption.
    constructor; [reflexivity | exact Hr].
Qed.

(** The counterexample to C3: the business logic raises on the first
    delivery of A1 and [processMessage] ends with that exception, not with
    a record; A1 stays recorded, so the next delivery of A1 is reported as
    a duplicate and the business logic, which would now succeed, is not
    invoked again. *)
Lemma no_rollback_counterexample :
  let clock := fun _ : nat => 0 in
  let A1 := mkMessage "A1" "Order placed" in
  let first := processMessage clock raises_once A1 new_StreamWeaverProcessor in
  let second := processMessage clock raises_once A1 (fst first) in
  snd first = Thrown /\
  events (fst first) = [Marked "A1"; Invoked A1; Raised A1] /\
  raises_once (entered (fst first) A1) A1 = true /\
  snd second = Returned (mkResult "A1" 0 false false) /\
  rejected (snd second) = true /\
  events (fst second) = events (fst first).
Proof. vm_compute. repeat split. Qed.

(** C3, as the code has it.  When the business logic raises on a new id,
    [processMessage] ends with that exception and returns no record; the id
    stays recorded; and after any further deliveries every delivery of that
    id is reported as a duplicate, without invoking the business logic. *)
Theorem failure_keeps_the_record (clock : nat -> Z) (logic : BusinessLogic)
    (m : Message) (w : World) (ms : list Message) (m' : Message) :
  id m ∉ processedMessages w ->
  logic (entered w m) m = false ->
  id m' = id m ->
  let w1 := fst (processMessage clock logic m w) in
  let w2 := fst (deliveries clock logic ms w1) in
  snd (processMessage clock logic m w) = Thrown /\
  id m ∈ processedMessages w1 /\
  (exists d, snd (processMessage clock logic m' w2) =
             Returned (mkResult (id m) d false false)) /\
  events (fst (processMessage clock logic m' w2)) = events w2.
Proof.
  intros Hnin Hko Hid w1 w2.
  assert (H1 : id m ∈ processedMessages w1).
  { unfold w1. rewrite processMessage_seen. set_solver. }
  assert (H2 : id m' ∈ processedMessages w2).
  { unfold w2. rewrite deliveries_seen, Hid. set_solver. }
  split.
  { now rewrite processMessage_new_raise. }
  split; [exact H1 |].
  rewrite processMessage_duplicate by exact H2. simpl. rewrite Hid.
  split; [eexists; reflexivity | reflexivity].
Qed.

Lemma failure_keeps_the_record_witness :
  let clock := fun _ : nat => 0 in
  let m := mkMessage "A1" "Order placed" in
  let w := new_StreamWeaverProcessor in
  let ms := [mkMessage "B2" "Inventory check"] in
  let w1 := fst (processMessage clock raises_once m w) in
  let w2 := fst (deliveries clock raises_once ms w1) in
  snd (processMessage clock raises_once m w) = Thrown /\
  id m ∈ processedMessages w1 /\
  (exists d, snd (processMessage clock raises_once m w2) =
             Returned (mkResult (id m) d false false)) /\
  events (fst (processMessage clock raises_once m w2)) = events w2.
Proof.
  apply (failure_keeps_the_record (fun _ => 0) raises_once
           (mkMessage "A1" "Order placed") new_StreamWeaverProcessor
           [mkMessage "B2" "Inventory check"] (mkMessage "A1" "Order placed")).
  - simpl. set_solver.
  - vm_compute. reflexivity.
  - reflexivity.
Defined.

(** ** The order of the mark and the effect *)

(** The counterexample to C4: on the first message of the demo the mark is
    the first thing that happens, before the business logic is entered. *)
Lemma mark_precedes_effect_counterexample :
  events after_A1 =
    [ Marked "A1"; Invoked (mkMessage "A1" "Order placed");
      Completed (mkMessage "A1" "Order placed") ] /\
  ~ write_after_effect (events after_A1).
Proof.
  split; [vm_compute; reflexivity |].
  intros H. destruct (H 0%nat "A1") as (j & m & Hlt & _).
  - vm_compute. reflexivity.
  - lia.
Qed.

(** C4, as the code has it.  On a new id [processMessage] first adds the id
    to [processedMessages], then enters the business logic, which then
    completes or raises; the id is recorded in either case.  On a recorded
    id nothing happens. *)
Theorem mark_before_effect (clock : nat -> Z) (logic : BusinessLogic)
    (m : Message) (w : World) :
  events (fst (processMessage clock logic m w)) =
    events w ++
    (if bool_decide (id m ∈ processedMessages w) then []
     else [ Marked (id m); Invoked m;
            if logic (entered w m) m then Completed m else Raised m ]) /\
  id m ∈ processedMessages (fst (processMessage clock logic m w)).
Proof.
  split; [| rewrite processMessage_seen; set_solver].
  step_split clock logic m w; simpl.
  - rewrite bool_decide_eq_true_2 by assumption. now rewrite app_nil_r.
  - rewrite bool_decide_eq_false_2 by assumption. rewrite Hok.
    unfold entered. now rewrite <- !app_assoc.
  - rewrite bool_decide_eq_false_2 by assumption. rewrite Hko.
    unfold entered. now rewrite <- !app_assoc.
Qed.

(** ** The returned record *)

(** With the class's own [executeBusinessLogic] every call returns, and the
    record is determined by the message id, the set and the two clock
    readings. *)
Lemma processMessage_returns clock m w :
  snd (processMessage clock executeBusinessLogic m w) =
    Returned (mkResult (id m) (clock (S (reads w)) - clock (reads w))
                (negb (bool_decide (id m ∈ processedMessages w)))
                (negb (bool_decide (id m ∈ processedMessages w)))).
Proof.
  destruct (decide (id m ∈ processedMessages w)) as [Hin | Hnin].
  - rewrite processMessage_duplicate by exact Hin.
    now rewrite bool_decide_eq_true_2.
  - rewrite processMessage_new_ok by (exact Hnin || reflexivity).
    now rewrite bool_decide_eq_false_2.
Qed.

(** The counterexample to C6: the record returned for the first message of
    the demo has the properties id, durationMs, processed and isNew;
    reading its [outcome] or its [reason] gives undefined. *)
Lemma no_outcome_field_counterexample :
  exists r,
    snd (processMessage (fun _ => 0) executeBusinessLogic
           (mkMessage "A1" "Order placed") new_StreamWeaverProcessor) =
      Returned r /\
    map fst (Result_object r) = ["id"; "durationMs"; "processed"; "isNew"] /\
    get_property "outcome" (Result_object r) = None /\
    get_property "reason" (Result_object r) = None.
Proof. eexists. split; [vm_compute; reflexivity |]. repeat split. Qed.

(** C6, as the code has it.  For every message [processMessage] (with the
    class's own business logic) returns an object with exactly the
    properties id, durationMs, processed and isNew: id is the message id,
    durationMs the difference of the two clock readings, and processed and
    isNew are the same boolean, true when the id was not yet recorded and
    false when it was. *)
Theorem record_shape (clock : nat -> Z) (m : Message) (w : World) :
  exists r,
    snd (processMessage clock executeBusinessLogic m w) = Returned r /\
    Result_object r =
      [ ("id", JsString (id m));
        ("durationMs", JsNumber (clock (S (reads w)) - clock (reads w)));
        ("processed", JsBoolean (negb (bool_decide (id m ∈ processedMessages w))));
        ("isNew", JsBoolean (negb (bool_decide (id m ∈ processedMessages w)))) ].
Proof. eexists. split; [apply processMessage_returns | reflexivity]. Qed.

(** ** Several attempts on one id *)

(** C7.  A method call runs to completion, so attempts that arrive together
    are served one after the other, in some order.  Whatever the order and
    the payloads, of [N >= 1] attempts on one id that is not yet recorded
    exactly one is admitted, the one served first: the id is added to the
    set once, and each of the other [N - 1] attempts is rejected as a
    duplicate. *)
Theorem one_admission_among_attempts (clock : nat -> Z) (logic : BusinessLogic)
    (x : string) (ms : list Message) (w : World) :
  x ∉ processedMessages w ->
  ms <> [] ->
  Forall (fun m => id m = x) ms ->
  exists o os,
    snd (deliveries clock logic ms w) = o :: os /\
    rejected o = false /\
    Forall (fun o' => rejected o' = true) os /\
    length os = (length ms - 1)%nat /\
    marked_count x (events (fst (deliveries clock logic ms w))) =
      S (marked_count x (events w)).
Proof.
  intros Hx Hne Hall. destruct ms as [| m ms]; [contradiction |].
  inversion Hall as [| ? ? Hm Hms]; subst.
  rewrite deliveries_cons. simpl.
  set (w1 := fst (processMessage clock logic m w)).
  assert (Hseen : Forall (fun m' => id m' ∈ processedMessages w1) ms).
  { eapply Forall_impl; [exact Hms |]. intros m' E. simpl in E.
    unfold w1. rewrite processMessage_seen, E. set_solver. }
  destruct (deliveries_duplicates clock logic ms w1 Hseen) as (_ & He & Hr).
  exists (snd (processMessage clock logic m w)),
         (snd (deliveries clock logic ms w1)).
  split; [reflexivity |]. split; [| split; [exact Hr | split]].
  - step_split clock logic m w; simpl; [contradiction | reflexivity ..].
  - rewrite deliveries_length. lia.
  - rewrite He. unfold w1. rewrite processMessage_marked_count.
    rewrite bool_decide_eq_false_2 by exact Hx.
    rewrite bool_decide_eq_true_2 by reflexivity. lia.
Qed.

Lemma one_admission_among_attempts_witness :
  let ms := [ mkMessage "A1" "Order placed";
              mkMessage "A1" "Order placed (Duplicate)";
              mkMessage "A1" "Order placed (again)" ] in
  exists o os,
    snd (deliveries (fun _ => 0) executeBusinessLogic ms
           new_StreamWeaverProcessor) = o :: os /\
    rejected o = false /\
    Forall (fun o' => rejected o' = true) os /\
    length os = (length ms - 1)%nat /\
    marked_count "A1"
      (events (fst (deliveries (fun _ => 0) executeBusinessLogic ms
                      new_StreamWeaverProcessor))) =
      S (marked_count "A1" (events new_StreamWeaverProcessor)).
Proof.
  apply (one_admission_among_attempts (fun _ => 0) executeBusinessLogic "A1"
           [ mkMessage "A1" "Order placed";
             mkMessage "A1" "Order placed (Duplicate)";
             mkMessage "A1" "Order placed (again)" ]
           new_StreamWeaverProcessor).
  - simpl. set_solver.
  - discriminate.
  - repeat constructor.
Defined.

(** ** The set only grows *)

(** C8.  No call of a public method removes an id from [processedMessages]:
    an id that is recorded is still recorded after any sequence of calls of
    [processMessage], [executeBusinessLogic] and [getUniqueCount], and a
    delivery of it is then reported as a duplicate, without invoking the
    business logic. *)
Theorem recorded_forever (clock : nat -> Z) (logic : BusinessLogic)
    (cs : list Call) (w : World) (x : string) :
  x ∈ processedMessages w ->
  processedMessages w ⊆ processedMessages (calls clock logic cs w) /\
  x ∈ processedMessages (calls clock logic cs w) /\
  forall m, id m = x ->
    (exists d, snd (processMessage clock logic m (calls clock logic cs w)) =
               Returned (mkResult x d false false)) /\
    events (fst (processMessage clock logic m (calls clock logic cs w))) =
      events (calls clock logic cs w).
Proof.
  intros Hx. pose proof (calls_seen clock logic cs w) as Hsub.
  assert (Hx' : x ∈ processedMessages (calls clock logic cs w))
    by (apply Hsub; exact Hx).
  split; [exact Hsub |]. split; [exact Hx' |].
  intros m Hm. subst x.
  rewrite processMessage_duplicate by exact Hx'. simpl.
  split; [eexists; reflexivity | reflexivity].
Qed.

Lemma recorded_forever_witness :
  let cs := [ Call_processMessage (mkMessage "B2" "Inventory check");
              Call_getUniqueCount;
              Call_executeBusinessLogic (mkMessage "A1" "Order placed") ] in
  let w' := calls (fun _ => 0) executeBusinessLogic cs after_A1 in
  processedMessages after_A1 ⊆ processedMessages w' /\
  "A1" ∈ processedMessages w' /\
  forall m, id m = "A1" ->
    (exists d, snd (processMessage (fun _ => 0) executeBusinessLogic m w') =
               Returned (mkResult "A1" d false false)) /\
    events (fst (processMessage (fun _ => 0) executeBusinessLogic m w')) =
      events w'.
Proof.
  apply (recorded_forever (fun _ => 0) executeBusinessLogic
           [ Call_processMessage (mkMessage "B2" "Inventory check");
             Call_getUniqueCount;
             Call_executeBusinessLogic (mkMessage "A1" "Order placed") ]
           after_A1 "A1").
  refine (proj1 (bool_decide_eq_true _) _). vm_compute. reflexivity.
Defined.

(** ** The payload plays no part *)

(** C9.  Two messages with the same id, delivered to processors with the
    same set of recorded ids, leave the same set behind, whatever their
    payloads, the clocks, the histories and the business logics; and with
    the class's own business logic the two returned records have the same
    [isNew] and the same [processed]. *)
Theorem admission_ignores_payload (clock1 clock2 : nat -> Z)
    (logic1 logic2 : BusinessLogic) (m1 m2 : Message) (w1 w2 : World) :
  id m1 = id m2 ->
  processedMessages w1 = processedMessages w2 ->
  processedMessages (fst (processMessage clock1 logic1 m1 w1)) =
    processedMessages (fst (processMessage clock2 logic2 m2 w2)) /\
  exists r1 r2,
    snd (processMessage clock1 executeBusinessLogic m1 w1) = Returned r1 /\
    snd (processMessage clock2 executeBusinessLogic m2 w2) = Returned r2 /\
    isNew r1 = isNew r2 /\
    processed r1 = processed r2.
Proof.
  intros Hid Hs. split.
  - now rewrite !processMessage_seen, Hid, Hs.
  - do 2 eexists. rewrite !processMessage_returns.
    split; [reflexivity |]. split; [reflexivity |]. simpl.
    now rewrite Hid, Hs.
Qed.

Lemma admission_ignores_payload_witness :
  let m1 := mkMessage "A1" "Order placed" in
  let m2 := mkMessage "A1" "Order placed (Duplicate)" in
  let w1 := new_StreamWeaverProcessor in
  let w2 := mkWorld ∅ 7 [Invoked (mkMessage "Z9" "stray")] in
  processedMessages (fst (processMessage (fun _ => 0) raises_once m1 w1)) =
    processedMessages
      (fst (processMessage (fun k => Z.of_nat k) executeBusinessLogic m2 w2)) /\
  exists r1 r2,
    snd (processMessage (fun _ => 0) executeBusinessLogic m1 w1) = Returned r1 /\
    snd (processMessage (fun k => Z.of_nat k) executeBusinessLogic m2 w2) =
      Returned r2 /\
    isNew r1 = isNew r2 /\
    processed r1 = processed r2.
Proof.
  apply (admission_ignores_payload (fun _ => 0) (fun k => Z.of_nat k)
           raises_once executeBusinessLogic
           (mkMessage "A1" "Order placed")
           (mkMessage "A1" "Order placed (Duplicate)")
           new_StreamWeaverProcessor
           (mkWorld ∅ 7 [Invoked (mkMessage "Z9" "stray")])).
  - reflexivity.
  - reflexivity.
Defined.

(** ** The count of unique messages *)

Lemma size_add_new (x : string) (s : gset string) :
  x ∉ s -> size ({[x]} ∪ s) = S (size s).
Proof.
  intros Hx. rewrite size_union by set_solver. now rewrite size_singleton.
Qed.

Lemma size_add_old (x : string) (s : gset string) :
  x ∈ s -> size ({[x]} ∪ s) = size s.
Proof.
  intros Hx. f_equal. apply set_eq. intros y. set_solver.
Qed.

(** Whether a call is rejected is decided by the set alone. *)
Lemma processMessage_rejected clock logic m w :
  rejected (snd (processMessage clock logic m w)) =
    bool_decide (id m ∈ processedMessages w).
Proof.
  step_split clock logic m w; simpl.
  - now rewrite bool_decide_eq_true_2.
  - now rewrite bool_decide_eq_false_2.
  - now rewrite bool_decide_eq_false_2.
Qed.

(** The calls that were not rejected, counted. *)
Lemma deliveries_size clock logic ms w :
  size (processedMessages (fst (deliveries clock logic ms w))) =
    (size (processedMessages w) +
     length (filter (fun o => rejected o = false)
               (snd (deliveries clock logic ms w))))%nat.
Proof.
  revert w. induction ms as [| m ms IH]; intros w.
  - simpl. lia.
  - rewrite deliveries_cons. simpl. rewrite IH, processMessage_seen.
    pose proof (processMessage_rejected clock logic m w) as Hr.
    destruct (decide (id m ∈ processedMessages w)) as [Hin | Hnin].
    + rewrite bool_decide_eq_true_2 in Hr by exact Hin.
      rewrite filter_cons_False by (rewrite Hr; discriminate).
      rewrite size_add_old by exact Hin. lia.
    + rewrite bool_decide_eq_false_2 in Hr by exact Hnin.
      rewrite filter_cons_True by exact Hr.
      rewrite size_add_new by exact Hnin. simpl. lia.
Qed.

Lemma size_list_to_set_ids (l : list string) :
  size (list_to_set l : gset string) = length (remove_dups l).
Proof.
  rewrite <- (size_list_to_set (C := gset string) (remove_dups l))
    by apply NoDup_remove_dups.
  f_equal. apply set_eq. intros y.
  rewrite !elem_of_list_to_set. now rewrite elem_of_remove_dups.
Qed.

(** X1.  After any stream has been delivered to a fresh processor, with any
    business logic, the recorded ids are exactly the ids that occur in the
    stream, and [getUniqueCount] returns the number of distinct ids in the
    stream, leaving the processor as it is. *)
Theorem unique_count_is_distinct_ids (clock : nat -> Z)
    (logic : BusinessLogic) (ms : list Message) :
  let w := fst (deliveries clock logic ms new_StreamWeaverProcessor) in
  (forall x, x ∈ processedMessages w <-> x ∈ map id ms) /\
  getUniqueCount w = (w, Returned (length (remove_dups (map id ms)))).
Proof.
  intros w. unfold w. split.
  - intros x. rewrite deliveries_seen. simpl. set_solver.
  - unfold getUniqueCount, Set_size. f_equal. f_equal.
    rewrite deliveries_seen. simpl. rewrite <- size_list_to_set_ids.
    f_equal. apply set_eq. intros y. set_solver.
Qed.

(** X2.  Over any sequence of deliveries, to any processor and with any
    business logic, [getUniqueCount] grows by exactly the number of calls
    that were not answered with a duplicate record: it never decreases, and
    a duplicate adds nothing. *)
Theorem unique_count_grows_by_admissions (clock : nat -> Z)
    (logic : BusinessLogic) (ms : list Message) (w : World) :
  exists before after,
    snd (getUniqueCount w) = Returned before /\
    snd (getUniqueCount (fst (deliveries clock logic ms w))) = Returned after /\
    after = (before +
             length (filter (fun o => rejected o = false)
                       (snd (deliveries clock logic ms w))))%nat /\
    (before <= after)%nat.
Proof.
  do 2 eexists. split; [reflexivity |]. split; [reflexivity |].
  rewrite deliveries_size. split; [reflexivity | lia].
Qed.

(** X3.  A new message whose business logic raises is counted all the
    same: the call ends with the exception and [getUniqueCount] is one
    higher than before. *)
Theorem raising_message_is_counted (clock : nat -> Z) (logic : BusinessLogic)
    (m : Message) (w : World) :
  id m ∉ processedMessages w ->
  logic (entered w m) m = false ->
  snd (processMessage clock logic m w) = Thrown /\
  snd (getUniqueCount (fst (processMessage clock logic m w))) =
    Returned (S (size (processedMessages w))).
Proof.
  intros Hnin Hko. rewrite processMessage_new_raise by assumption. simpl.
  split; [reflexivity |]. unfold getUniqueCount, Set_size. simpl.
  now rewrite size_add_new.
Qed.

Lemma raising_message_is_counted_witness :
  let m := mkMessage "A1" "Order placed" in
  snd (processMessage (fun _ => 0) raises_once m new_StreamWeaverProcessor) =
    Thrown /\
  snd (getUniqueCount
         (fst (processMessage (fun _ => 0) raises_once m
                 new_StreamWeaverProcessor))) =
    Returned (S (size (processedMessages new_StreamWeaverProcessor))).
Proof.
  apply (raising_message_is_counted (fun _ => 0) raises_once
           (mkMessage "A1" "Order placed") new_StreamWeaverProcessor).
  - simpl. set_solver.
  - vm_compute. reflexivity.
Defined.

(** X4.  The recorded ids, and with them the count, depend only on which
    ids were delivered: two streams that carry the same ids, in any order
    and with any repetitions and payloads, delivered to processors with the
    same recorded ids, leave the same set and the same [getUniqueCount]
    behind, whatever the clocks and the business logics. *)
Theorem order_and_repetition_do_not_matter (clock1 clock2 : nat -> Z)
    (logic1 logic2 : BusinessLogic) (ms1 ms2 : list Message) (w1 w2 : World) :
  (forall x, x ∈ map id ms1 <-> x ∈ map id ms2) ->
  processedMessages w1 = processedMessages w2 ->
  processedMessages (fst (deliveries clock1 logic1 ms1 w1)) =
    processedMessages (fst (deliveries clock2 logic2 ms2 w2)) /\
  snd (getUniqueCount (fst (deliveries clock1 logic1 ms1 w1))) =
    snd (getUniqueCount (fst (deliveries clock2 logic2 ms2 w2))).
Proof.
  intros Hids Hs.
  assert (E : processedMessages (fst (deliveries clock1 logic1 ms1 w1)) =
              processedMessages (fst (deliveries clock2 logic2 ms2 w2))).
  { rewrite !deliveries_seen, Hs. apply set_eq. intros y.
    rewrite !elem_of_union, !elem_of_list_to_set. now rewrite Hids. }
  split; [exact E |]. unfold getUniqueCount, Set_size. simpl. now rewrite E.
Qed.

Lemma order_and_repetition_do_not_matter_witness :
  let A1 := mkMessage "A1" "Order placed" in
  let B2 := mkMessage "B2" "Inventory check" in
  let A1' := mkMessage "A1" "Order placed (Duplicate)" in
  let w1 := fst (deliveries (fun _ => 0) raises_once [A1; B2; A1']
                   new_StreamWeaverProcessor) in
  let w2 := fst (deliveries (fun k => Z.of_nat k) executeBusinessLogic
                   [B2; A1'] new_StreamWeaverProcessor) in
  processedMessages w1 = processedMessages w2 /\
  snd (getUniqueCount w1) = snd (getUniqueCount w2).
Proof.
  apply (order_and_repetition_do_not_matter (fun _ => 0) (fun k => Z.of_nat k)
           raises_once executeBusinessLogic
           [ mkMessage "A1" "Order placed"; mkMessage "B2" "Inventory check";
             mkMessage "A1" "Order placed (Duplicate)" ]
           [ mkMessage "B2" "Inventory check";
             mkMessage "A1" "Order placed (Duplicate)" ]
           new_StreamWeaverProcessor new_StreamWeaverProcessor).
  - intros x. simpl. set_solver.
  - reflexivity.
Defined.

(** ** Which deliveries are new *)

(** X5.  In any sequence of deliveries, the delivery at position [i] is
    answered with a duplicate record exactly when its id was recorded
    before the sequence began or is carried by a message at an earlier
    position; otherwise it is admitted.  This holds for every business
    logic, also when earlier deliveries raised. *)
Theorem outcome_by_position (clock : nat -> Z) (logic : BusinessLogic)
    (ms : list Message) (w : World) (i : nat) (m : Message) :
  ms !! i = Some m ->
  exists o,
    snd (deliveries clock logic ms w) !! i = Some o /\
    rejected o =
      bool_decide (id m ∈ processedMessages w \/ id m ∈ map id (take i ms)).
Proof.
  revert w i. induction ms as [| a ms IH]; intros w i Hi; [discriminate |].
  rewrite deliveries_cons. destruct i as [| i]; simpl in Hi |- *.
  - inversion Hi; subst a. eexists. split; [reflexivity |].
    rewrite processMessage_rejected. apply bool_decide_ext.
    rewrite elem_of_nil. tauto.
  - destruct (IH (fst (processMessage clock logic a w)) i Hi) as (o & Ho & Hr).
    exists o. split; [exact Ho |]. rewrite Hr. apply bool_decide_ext.
    rewrite processMessage_seen, elem_of_union, elem_of_singleton, elem_of_cons.
    tauto.
Qed.

Lemma outcome_by_position_witness :
  exists o,
    snd (deliveries (fun _ => 0) raises_once messageStream
           new_StreamWeaverProcessor) !! 2%nat = Some o /\
    rejected o =
      bool_decide
        (id (mkMessage "A1" "Order placed (Duplicate)")
           ∈ processedMessages new_StreamWeaverProcessor \/
         id (mkMessage "A1" "Order placed (Duplicate)")
           ∈ map id (take 2 messageStream)).
Proof.
  apply (outcome_by_position (fun _ => 0) raises_once messageStream
           new_StreamWeaverProcessor 2
           (mkMessage "A1" "Order placed (Duplicate)")).
  reflexivity.
Defined.

Lemma processMessage_invocations clock logic m w :
  invocations (events (fst (processMessage clock logic m w))) =
    invocations (events w) ++
    (if bool_decide (id m ∈ processedMessages w) then [] else [m]).
Proof.
  unfold invocations.
  step_split clock logic m w; simpl.
  - rewrite bool_decide_eq_true_2 by assumption. now rewrite app_nil_r.
  - rewrite bool_decide_eq_false_2 by assumption.
    unfold entered. rewrite !omap_app. simpl. now rewrite !app_nil_r.
  - rewrite bool_decide_eq_false_2 by assumption.
    unfold entered. rewrite !omap_app. simpl. now rewrite !app_nil_r.
Qed.

Lemma filter_all {A} (P : A -> Prop) `{forall x, Decision (P x)} (l : list A) :
  (forall x, P x) -> filter P l = l.
Proof.
  intros HP. induction l as [| a l IH]; [reflexivity |].
  rewrite filter_cons_True by apply HP. now rewrite IH.
Qed.

(** From any processor: the new invocations are the first deliveries of the
    ids that were not recorded yet. *)
Lemma deliveries_invocations clock logic ms w :
  invocations (events (fst (deliveries clock logic ms w))) =
    invocations (events w) ++
    filter (fun m => id m ∉ processedMessages w) (first_per_id ms).
Proof.
  revert w. induction ms as [| m ms IH]; intros w.
  - simpl. now rewrite app_nil_r.
  - rewrite deliveries_cons. simpl fst. rewrite IH.
    rewrite processMessage_invocations, processMessage_seen.
    simpl first_per_id.
    destruct (decide (id m ∈ processedMessages w)) as [Hin | Hnin].
    + rewrite bool_decide_eq_true_2 by exact Hin. rewrite app_nil_r.
      rewrite filter_cons_False by (intros Hn; exact (Hn Hin)).
      rewrite list_filter_filter. f_equal.
      apply list_filter_iff. intros m'. set_solver.
    + rewrite bool_decide_eq_false_2 by exact Hnin.
      rewrite filter_cons_True by exact Hnin.
      rewrite list_filter_filter, <- app_assoc. simpl. do 2 f_equal.
      apply list_filter_iff. intros m'. set_solver.
Qed.

(** X6.  The first delivery wins: after any stream has been delivered to a
    fresh processor, the messages on which the business logic was invoked
    are, in delivery order, exactly the first message of each id; the
    payload of every later message with the same id is never handed to the
    business logic, even when the first one raised. *)
Theorem first_delivery_wins (clock : nat -> Z) (logic : BusinessLogic)
    (ms : list Message) :
  invocations
    (events (fst (deliveries clock logic ms new_StreamWeaverProcessor))) =
  first_per_id ms.
Proof.
  rewrite deliveries_invocations. simpl.
  apply filter_all. intros m. set_solver.
Qed.

(** ** The measured duration *)



(** ** Redelivery *)

(** X8.  Redelivery is free of effects: once a stream has been delivered,
    delivering any messages whose ids occurred in it (the whole stream
    again, a part of it, in any order, with any payloads) changes neither
    the recorded ids nor the history, so the business logic is not invoked,
    and every one of these deliveries is answered with a duplicate
    record. *)
Theorem redelivery_changes_nothing (clock : nat -> Z) (logic : BusinessLogic)
    (ms again : list Message) (w : World) :
  Forall (fun m => id m ∈ map id ms) again ->
  let w1 := fst (deliveries clock logic ms w) in
  processedMessages (fst (deliveries clock logic again w1)) =
    processedMessages w1 /\
  events (fst (deliveries clock logic again w1)) = events w1 /\
  Forall (fun o => rejected o = true) (snd (deliveries clock logic again w1)).
Proof.
  intros Hall w1. apply deliveries_duplicates.
  eapply Forall_impl; [exact Hall |]. intros m Hm. simpl in Hm.
  unfold w1. rewrite deliveries_seen. set_solver.
Qed.

Lemma redelivery_changes_nothing_witness :
  let again := [ mkMessage "D4" "Shipping label printed (again)";
                 mkMessage "A1" "Order placed (third time)" ] in
  let w1 := fst (deliveries (fun _ => 0) raises_once messageStream
                   new_StreamWeaverProcessor) in
  processedMessages (fst (deliveries (fun _ => 0) raises_once again w1)) =
    processedMessages w1 /\
  events (fst (deliveries (fun _ => 0) raises_once again w1)) = events w1 /\
  Forall (fun o => rejected o = true)
    (snd (deliveries (fun _ => 0) raises_once again w1)).
Proof.
  apply (redelivery_changes_nothing (fun _ => 0) raises_once messageStream
           [ mkMessage "D4" "Shipping label printed (again)";
             mkMessage "A1" "Order placed (third time)" ]
           new_StreamWeaverProcessor).
  repeat constructor; simpl; set_solver.
Defined.

(** ** The loop and the summary of the demo *)

(** With the class's own business logic the loop never stops early: it
    yields the records of the single deliveries. *)
Lemma mapM_processMessage clock ms w :
  exists rs,
    mapM (processMessage clock executeBusinessLogic) ms w =
      (fst (deliveries clock executeBusinessLogic ms w), Returned rs) /\
    snd (deliveries clock executeBusinessLogic ms w) = map Returned rs /\
    map r_id rs = map id ms.
Proof.
  revert w. induction ms as [| m ms IH]; intros w.
  - exists []. repeat split.
  - rewrite deliveries_cons. simpl.
    pose proof (processMessage_returns clock m w) as Hr.
    destruct (processMessage clock executeBusinessLogic m w) as [w1 o] eqn:E.
    simpl in Hr. subst o. simpl.
    destruct (IH w1) as (rs & Hm & Hs & Hi).
    eexists (_ :: rs). unfold bind at 1. rewrite E.
    unfold bind at 1. rewrite Hm. simpl. unfold ret.
    split; [reflexivity |]. split; [now rewrite Hs | now rewrite Hi].
Qed.

Lemma new_statuses_are_admissions (rs : list Result) :
  length (filter (fun s => s = "NEW (Processed)") (map status rs)) =
  length (filter (fun o => rejected o = false) (map Returned rs)).
Proof.
  induction rs as [| r rs IH]; [reflexivity |].
  simpl. unfold status at 1. destruct (isNew r) eqn:E.
  - rewrite !filter_cons_True by (simpl; rewrite ?E; reflexivity).
    simpl. now rewrite IH.
  - rewrite !filter_cons_False by (simpl; rewrite ?E; discriminate).
    exact IH.
Qed.

(** X9.  For every stream, the demo's loop over a fresh processor finishes
    with one record and one status line per message, each record carrying
    the id of its message; and the number it then prints as "Total unique
    messages processed" is the number of lines it printed with the status
    NEW (Processed), which is the number of distinct ids in the stream. *)
Theorem summary_matches_statuses (clock : nat -> Z) (stream : list Message) :
  exists results n,
    snd (forEach_summary clock stream new_StreamWeaverProcessor) =
      Returned (results, map status results, length stream, n) /\
    length results = length stream /\
    map r_id results = map id stream /\
    n = length (filter (fun s => s = "NEW (Processed)") (map status results)) /\
    n = length (remove_dups (map id stream)).
Proof.
  destruct (mapM_processMessage clock stream new_StreamWeaverProcessor)
    as (rs & Hm & Hs & Hi).
  exists rs, (size (processedMessages
                (fst (deliveries clock executeBusinessLogic stream
                        new_StreamWeaverProcessor)))).
  split.
  { unfold forEach_summary, bind. rewrite Hm. reflexivity. }
  split.
  { rewrite <- (length_map r_id), Hi. apply length_map. }
  split; [exact Hi |]. split.
  - rewrite deliveries_size, Hs, new_statuses_are_admissions.
    change (processedMessages new_StreamWeaverProcessor) with (∅ : gset string).
    rewrite size_empty. lia.
  - rewrite deliveries_seen. simpl. rewrite <- size_list_to_set_ids.
    f_equal. apply set_eq. intros y. set_solver.
Qed.

(** ** Calling the business logic directly *)

(** X10.  [executeBusinessLogic] is a public method, and calling it directly
    bypasses the bookkeeping: it leaves [processedMessages] and
    [getUniqueCount] as they were, so a message handled that way is still
    new to [processMessage], and the business logic ends up invoked twice
    for its id. *)
Theorem direct_call_is_not_recorded (clock : nat -> Z) (logic : BusinessLogic)
    (m : Message) (w : World) :
  id m ∉ processedMessages w ->
  let w1 := call clock logic (Call_executeBusinessLogic m) w in
  processedMessages w1 = processedMessages w /\
  snd (getUniqueCount w1) = snd (getUniqueCount w) /\
  rejected (snd (processMessage clock logic m w1)) = false /\
  invoked_count (id m)
    (events (calls clock logic
               [Call_executeBusinessLogic m; Call_processMessage m] w)) =
    (2 + invoked_count (id m) (events w))%nat.
Proof.
  intros Hnin w1.
  assert (Hs : processedMessages w1 = processedMessages w).
  { unfold w1. simpl. unfold call_executeBusinessLogic.
    now destruct (logic (events w ++ [Invoked m]) m). }
  assert (He : invoked_count (id m) (events w1) =
               S (invoked_count (id m) (events w))).
  { unfold w1. simpl. unfold call_executeBusinessLogic.
    destruct (logic (events w ++ [Invoked m]) m); simpl;
      rewrite !invoked_count_app, invoked_count_Invoked;
      rewrite bool_decide_eq_true_2 by reflexivity.
    - change (invoked_count (id m) [Completed m]) with 0%nat. lia.
    - change (invoked_count (id m) [Raised m]) with 0%nat. lia. }
  split; [exact Hs |]. split.
  { unfold getUniqueCount, Set_size. simpl. now rewrite Hs. }
  split.
  { rewrite processMessage_rejected, Hs.
    now rewrite bool_decide_eq_false_2. }
  change (calls clock logic
            [Call_executeBusinessLogic m; Call_processMessage m] w)
    with (fst (processMessage clock logic m w1)).
  rewrite processMessage_invoked_count, Hs, He.
  rewrite bool_decide_eq_false_2 by exact Hnin.
  rewrite bool_decide_eq_true_2 by reflexivity. lia.
Qed.

Lemma direct_call_is_not_recorded_witness :
  let m := mkMessage "A1" "Order placed" in
  let w := new_StreamWeaverProcessor in
  let w1 := call (fun _ => 0) executeBusinessLogic
              (Call_executeBusinessLogic m) w in
  processedMessages w1 = processedMessages w /\
  snd (getUniqueCount w1) = snd (getUniqueCount w) /\
  rejected (snd (processMessage (fun _ => 0) executeBusinessLogic m w1)) =
    false /\
  invoked_count (id m)
    (events (calls (fun _ => 0) executeBusinessLogic
               [Call_executeBusinessLogic m; Call_processMessage m] w)) =
    (2 + invoked_count (id m) (events w))%nat.
Proof.
  apply (direct_call_is_not_recorded (fun _ => 0) executeBusinessLogic
           (mkMessage "A1" "Order placed") new_StreamWeaverProcessor).
  simpl. set_solver.
Defined.

(** ** No id is added twice *)

Lemma marked_once_call clock logic c w :
  marked_once w -> marked_once (call clock logic c w).
Proof.
  intros Hw x. destruct c as [m | m |]; simpl.
  - rewrite processMessage_marked_count, processMessage_seen, Hw.
    destruct (decide (id m ∈ processedMessages w)) as [Hm | Hm];
      destruct (decide (x ∈ processedMessages w)) as [Hx | Hx];
      destruct (decide (id m = x)) as [E | E];
      repeat first
        [ rewrite bool_decide_eq_true_2 by set_solver
        | rewrite bool_decide_eq_false_2 by set_solver ];
      try lia; subst; contradiction.
  - unfold call_executeBusinessLogic.
    destruct (logic (events w ++ [Invoked m]) m); simpl;
      rewrite !marked_count_app, Hw.
    + change (marked_count x [Invoked m]) with 0%nat.
      change (marked_count x [Completed m]) with 0%nat. lia.
    + change (marked_count x [Invoked m]) with 0%nat.
      change (marked_count x [Raised m]) with 0%nat. lia.
  - apply Hw.
Qed.

Lemma marked_once_calls clock logic cs w :
  marked_once w -> marked_once (calls clock logic cs w).
Proof.
  revert w. induction cs as [| c cs IH]; intros w Hw; [exact Hw |].
  simpl. apply IH. now apply marked_once_call.
Qed.

(** X11.  Whatever calls of the public methods a fresh processor receives,
    in any order and with any business logic, [processedMessages.add] is
    called exactly once for each id that ends up recorded and never for
    another id: no id is ever added twice, and the set holds nothing that
    [processMessage] did not add. *)
Theorem each_id_added_once (clock : nat -> Z) (logic : BusinessLogic)
    (cs : list Call) (x : string) :
  marked_count x (events (calls clock logic cs new_StreamWeaverProcessor)) =
  if bool_decide
       (x ∈ processedMessages (calls clock logic cs new_StreamWeaverProcessor))
  then 1%nat else 0%nat.
Proof.
  apply marked_once_calls. intros y. reflexivity.
Qed.
